(** * Package [ov]: Go bindings of libvorbisfile (audio/ov/vorbisfile.go)

  The package is a thin cgo layer: every exported function checks the
  process-wide [loaded] flag, calls one function of the native library and
  turns its status into a Go [error].  The development embeds the Go code
  as state-passing functions over a [world] that holds the Go globals, the
  Go heap objects the package creates, the C heap blocks it allocates and
  the sequence of native calls it performed.  The native library itself
  is an interface ([Vorbisfile]) the embedding is parametric in. *)

From Stdlib Require Import ZArith PrimFloat FloatOps SpecFloat.
From stdpp Require Import gmap strings list fin_maps.

Local Open Scope Z_scope.

(** ** Machine integers and conversions *)

Module Conv.

(** Two's complement wrap-around of [z] to a signed integer of [bits] bits. *)
Definition wrap (bits z : Z) : Z :=
  (z + 2 ^ (bits - 1)) mod 2 ^ bits - 2 ^ (bits - 1).

(** [C.int] is 32 bits; [C.long], [C.ogg_int64_t], Go's [int] and [int64]
    are 64 bits (LP64, 64-bit Go). *)
Definition C_int : Z -> Z := wrap 32.
Definition C_long : Z -> Z := wrap 64.
Definition C_ogg_int64_t : Z -> Z := wrap 64.
Definition Go_int : Z -> Z := wrap 64.
Definition Go_int64 : Z -> Z := wrap 64.

(** Integer part of a float64, fraction discarded (towards zero); [None]
    for NaN and the infinities. *)
Definition truncate (d : float) : option Z :=
  match Prim2SF d with
  | S754_zero _ => Some 0
  | S754_finite s m e =>
      let mag := match e with
                 | Zneg k => Z.shiftr (Zpos m) (Zpos k)
                 | _ => Z.shiftl (Zpos m) e
                 end in
      Some (if s then - mag else mag)
  | S754_infinity _ | S754_nan => None
  end.

Definition fits_int32 (z : Z) : bool := (- 2 ^ 31 <=? z) && (z <? 2 ^ 31).

(** Go's conversion [C.int(d)] of a float64: truncation when the result
    is representable; otherwise the conversion succeeds with a value the
    language leaves to the implementation, here [indefinite d]. *)
Definition C_int_of_float (indefinite : float -> Z) (d : float) : Z :=
  match truncate d with
  | Some z => if fits_int32 z then z else C_int (indefinite d)
  | None => C_int (indefinite d)
  end.

End Conv.
Export Conv.

(** ** Status codes of the native library *)

(** The numeric values of the [OV_E...] macros are fixed by libvorbis'
    header <vorbis/codec.h>, which vorbisfile.go only includes; the
    embedding takes them as an interface. *)
Class OvCodes := {
  OV_EREAD : Z;
  OV_EFAULT : Z;
  OV_EIMPL : Z;
  OV_EINVAL : Z;
  OV_ENOTVORBIS : Z;
  OV_EBADHEADER : Z;
  OV_EVERSION : Z;
  OV_ENOTAUDIO : Z;
  OV_EBADPACKET : Z;
  OV_EBADLINK : Z;
  OV_ENOSEEK : Z
}.

(** The values libvorbis ships (codec.h). *)
Definition libvorbis : OvCodes := {|
  OV_EREAD := -128;
  OV_EFAULT := -129;
  OV_EIMPL := -130;
  OV_EINVAL := -131;
  OV_ENOTVORBIS := -132;
  OV_EBADHEADER := -133;
  OV_EVERSION := -134;
  OV_ENOTAUDIO := -135;
  OV_EBADPACKET := -136;
  OV_EBADLINK := -137;
  OV_ENOSEEK := -138
|}.

Section ErrorTaxonomy.
Context {codes : OvCodes}.

(** The exported constant block (lines 39-51). *)
Definition Eread : Z := OV_EREAD.
Definition Efault : Z := OV_EFAULT.
Definition Eimpl : Z := OV_EIMPL.
Definition Einval : Z := OV_EINVAL.
Definition EnotVorbis : Z := OV_ENOTVORBIS.
Definition EbadHeader : Z := OV_EBADHEADER.
Definition Eversion : Z := OV_EVERSION.
Definition EnotAudio : Z := OV_ENOTAUDIO.
Definition EbadPacket : Z := OV_EBADPACKET.
Definition EbadLink : Z := OV_EBADLINK.
Definition EnoSeek : Z := OV_ENOSEEK.

(** The eleven exported constants with their Go identifiers. *)
Definition enumeration : list (Z * string) :=
  [ (Eread, "Eread"); (Efault, "Efault"); (Eimpl, "Eimpl");
    (Einval, "Einval"); (EnotVorbis, "EnotVorbis");
    (EbadHeader, "EbadHeader"); (Eversion, "Eversion");
    (EnotAudio, "EnotAudio"); (EbadPacket, "EbadPacket");
    (EbadLink, "EbadLink"); (EnoSeek, "EnoSeek") ].

(** The entries of the map literal [errCodes], in source order
    (lines 54-65). *)
Definition errCodes_literal : list (Z * string) :=
  [ (OV_EREAD, "Eread");
    (OV_EFAULT, "Efault");
    (OV_EIMPL, "Eimpl");
    (OV_EINVAL, "Einval");
    (OV_ENOTVORBIS, "EnotVorbis");
    (OV_EVERSION, "Eversion");
    (OV_ENOTAUDIO, "EnotAudio");
    (OV_EBADPACKET, "EbadPacket");
    (OV_EBADLINK, "EbadLink");
    (OV_ENOSEEK, "EnoSeek") ].

Definition errCodes : gmap Z string := list_to_map errCodes_literal.

(** The Go index expression [errCodes[c]]: the zero value of [string]
    for a key that is not in the map. *)
Definition errCodes_index (c : Z) : string := default "" (errCodes !! c).

End ErrorTaxonomy.

(** ** The native library and the Go implementation *)

(** C pointers and Go pointers are addresses; [0] is [NULL] / [nil]. *)
Abbreviation ptr := N (only parsing).
Abbreviation ref := N (only parsing).

(** The fields of the native [vorbis_info] that [Info] reads. *)
Record vorbis_info := {
  version : Z;
  channels : Z;
  rate : Z;
  bitrate_upper : Z;
  bitrate_nominal : Z;
  bitrate_lower : Z;
  bitrate_window : Z
}.

(** The functions of libvorbisfile (and of loader.h) the package calls, as
    transitions of an opaque native state [NS].  Integer results are raw;
    the embedding reads them at their C type. *)
Class Vorbisfile (NS : Type) := {
  vorbisfile_load : NS -> Z * NS;
  ov_fopen : string -> ptr -> NS -> Z * NS;
  ov_clear : ptr -> NS -> Z * NS;
  (* vf, buffer, length, bigendianp, word, sgned, the initial *bitstream;
     result and the final *bitstream *)
  ov_read : ptr -> ptr -> Z -> Z -> Z -> Z -> Z -> NS -> Z * Z * NS;
  ov_info : ptr -> Z -> NS -> option vorbis_info * NS;
  ov_seekable : ptr -> NS -> Z * NS;
  ov_pcm_seek : ptr -> Z -> NS -> Z * NS;
  ov_pcm_total : ptr -> Z -> NS -> Z * NS;
  ov_time_total : ptr -> Z -> NS -> float * NS;
  ov_time_tell : ptr -> NS -> float * NS
}.

(** What the Go implementation does where the language leaves it open:
    the [C.int] a float64 converts to when it has no integer part in
    range. *)
Class Platform := {
  indefinite_int32 : float -> Z
}.

(** ** Go values of the package *)

(** [type File struct { vf *C.OggVorbis_File }] *)
Record File := { vf : ptr }.

Record VorbisInfo := {
  Version : Z;
  Channels : Z;
  Rate : Z;
  BitrateUpper : Z;
  BitrateNominal : Z;
  BitrateLower : Z;
  BitrateWindow : Z
}.

(** A Go [error]: [None] is [nil], [Some msg] an error whose [Error()]
    text is [msg]. *)
Abbreviation error := (option string) (only parsing).

(** [fmt.Errorf(pre + "%s" + post, s)] *)
Definition Errorf (pre post s : string) : error := Some (pre +:+ s +:+ post).

(** ** The world *)

(** Calls that cross into C, with their arguments and what came back. *)
Inductive event :=
| C_malloc_ev (p : ptr)
| C_CString_ev (s : string) (p : ptr)
| C_free_ev (p : ptr)
| vorbisfile_load_ev (res : Z)
| ov_fopen_ev (path : string) (cpath f : ptr) (res : Z)
| ov_clear_ev (f : ptr) (res : Z)
| ov_read_ev (f buffer : ptr) (length bigendianp word sgned : Z) (res bitstream : Z)
| ov_info_ev (f : ptr) (link : Z) (res : option vorbis_info)
| ov_seekable_ev (f : ptr) (res : Z)
| ov_pcm_seek_ev (f : ptr) (pos : Z) (res : Z)
| ov_pcm_total_ev (f : ptr) (i : Z) (res : Z)
| ov_time_total_ev (f : ptr) (i : Z) (res : float)
| ov_time_tell_ev (f : ptr) (res : float).

Record world (NS : Type) := World {
  loaded : bool;                (* var loaded = false *)
  files : gmap N File;          (* Go heap: the File variables *)
  infos : gmap N VorbisInfo;    (* Go heap: the callers' VorbisInfo *)
  cheap : gset N;               (* C heap: blocks allocated and not freed *)
  native : NS;                  (* state of the native library *)
  trace : list event            (* calls into C so far, oldest first *)
}.
Arguments World {NS}.
Arguments loaded {NS}.
Arguments files {NS}.
Arguments infos {NS}.
Arguments cheap {NS}.
Arguments native {NS}.
Arguments trace {NS}.

(** How a Go call ends: it returns, or it panics; either way in a world. *)
Inductive outcome (NS A : Type) :=
| Returned (a : A) (w : world NS)
| Panicked (msg : string) (w : world NS).
Arguments Returned {NS A}.
Arguments Panicked {NS A}.

Definition state_of {NS A} (o : outcome NS A) : world NS :=
  match o with Returned _ w => w | Panicked _ w => w end.

Definition go (NS A : Type) : Type := world NS -> outcome NS A.

#[global] Instance go_ret NS : MRet (go NS) := fun A a w => Returned a w.

#[global] Instance go_bind NS : MBind (go NS) := fun A B k m w =>
  match m w with
  | Returned a w' => k a w'
  | Panicked msg w' => Panicked msg w'
  end.

(** [panic(msg)] *)
Definition panic {NS A} (msg : string) : go NS A := fun w => Panicked msg w.

(** [defer d] around [body]: [d] runs when [body] returns and when it
    panics. *)
Definition defer {NS A} (d : go NS unit) (body : go NS A) : go NS A := fun w =>
  match body w with
  | Returned a w1 =>
      match d w1 with
      | Returned _ w2 => Returned a w2
      | Panicked msg w2 => Panicked msg w2
      end
  | Panicked msg w1 =>
      match d w1 with
      | Returned _ w2 => Panicked msg w2
      | Panicked msg' w2 => Panicked msg' w2
      end
  end.

(** ** The package *)

Section Package.
Context {codes : OvCodes} {plat : Platform} {NS : Type} {lib : Vorbisfile NS}.

Definition set_loaded (b : bool) (w : world NS) : world NS :=
  World b (files w) (infos w) (cheap w) (native w) (trace w).
Definition set_files (m : gmap N File) (w : world NS) : world NS :=
  World (loaded w) m (infos w) (cheap w) (native w) (trace w).
Definition set_infos (m : gmap N VorbisInfo) (w : world NS) : world NS :=
  World (loaded w) (files w) m (cheap w) (native w) (trace w).
Definition set_cheap (h : gset N) (w : world NS) : world NS :=
  World (loaded w) (files w) (infos w) h (native w) (trace w).

(** A call into C: the native state moves and the call is recorded. *)
Definition crossed (n : NS) (e : event) (w : world NS) : world NS :=
  World (loaded w) (files w) (infos w) (cheap w) n (trace w ++ [e]).

Definition nil_dereference : string :=
  "runtime error: invalid memory address or nil pointer dereference".

Definition not_loaded : string :=
  "libvorbisfile shared library/dll was not loaded".

(** *** Memory *)

(** [C.malloc]: a block at an address that is not [NULL] and not in use
    (cgo's [C.malloc] never returns [nil]). *)
Definition C_malloc : go NS ptr := fun w =>
  let p := fresh ({[ 0%N ]} ∪ cheap w) in
  Returned p (crossed (native w) (C_malloc_ev p) (set_cheap ({[ p ]} ∪ cheap w) w)).

(** [C.CString(s)]: a fresh C copy of [s]. *)
Definition C_CString (s : string) : go NS ptr := fun w =>
  let p := fresh ({[ 0%N ]} ∪ cheap w) in
  Returned p (crossed (native w) (C_CString_ev s p) (set_cheap ({[ p ]} ∪ cheap w) w)).

(** [C.free(p)] *)
Definition C_free (p : ptr) : go NS unit := fun w =>
  Returned tt (crossed (native w) (C_free_ev p) (set_cheap (cheap w ∖ {[ p ]}) w)).

(** [var f File]: a variable whose address leaves the function, zeroed. *)
Definition var_File : go NS ref := fun w =>
  let f := fresh ({[ 0%N ]} ∪ dom (files w)) in
  Returned f (set_files (<[ f := {| vf := 0%N |} ]> (files w)) w).

(** [f.vf] read through a [*File] *)
Definition get_vf (f : ref) : go NS ptr := fun w =>
  match files w !! f with
  | Some o => Returned (vf o) w
  | None => Panicked nil_dereference w
  end.

(** [f.vf = p] through a [*File] *)
Definition put_vf (f : ref) (p : ptr) : go NS unit := fun w =>
  match files w !! f with
  | Some _ => Returned tt (set_files (<[ f := {| vf := p |} ]> (files w)) w)
  | None => Panicked nil_dereference w
  end.

(** [info.Field = v] through a [*VorbisInfo] *)
Definition put_info (info : ref) (upd : VorbisInfo -> VorbisInfo) : go NS unit := fun w =>
  match infos w !! info with
  | Some o => Returned tt (set_infos (<[ info := upd o ]> (infos w)) w)
  | None => Panicked nil_dereference w
  end.

(** *** The native calls, results read at their C type *)

Definition C_vorbisfile_load : go NS Z := fun w =>
  let '(r, n) := vorbisfile_load (native w) in
  Returned (C_int r) (crossed n (vorbisfile_load_ev (C_int r)) w).

Definition C_ov_fopen (path : string) (cpath f : ptr) : go NS Z := fun w =>
  let '(r, n) := ov_fopen path f (native w) in
  Returned (C_int r) (crossed n (ov_fopen_ev path cpath f (C_int r)) w).

Definition C_ov_clear (f : ptr) : go NS Z := fun w =>
  let '(r, n) := ov_clear f (native w) in
  Returned (C_int r) (crossed n (ov_clear_ev f (C_int r)) w).

Definition C_ov_read (f buffer : ptr) (length bigendianp word sgned bitstream : Z)
  : go NS (Z * Z) := fun w =>
  let '(r, b, n) := ov_read f buffer length bigendianp word sgned bitstream (native w) in
  Returned (C_long r, C_int b)
    (crossed n (ov_read_ev f buffer length bigendianp word sgned (C_long r) (C_int b)) w).

Definition C_ov_info (f : ptr) (link : Z) : go NS (option vorbis_info) := fun w =>
  let '(r, n) := ov_info f link (native w) in
  Returned r (crossed n (ov_info_ev f link r) w).

Definition C_ov_seekable (f : ptr) : go NS Z := fun w =>
  let '(r, n) := ov_seekable f (native w) in
  Returned (C_long r) (crossed n (ov_seekable_ev f (C_long r)) w).

Definition C_ov_pcm_seek (f : ptr) (pos : Z) : go NS Z := fun w =>
  let '(r, n) := ov_pcm_seek f pos (native w) in
  Returned (C_int r) (crossed n (ov_pcm_seek_ev f pos (C_int r)) w).

Definition C_ov_pcm_total (f : ptr) (i : Z) : go NS Z := fun w =>
  let '(r, n) := ov_pcm_total f i (native w) in
  Returned (C_ogg_int64_t r) (crossed n (ov_pcm_total_ev f i (C_ogg_int64_t r)) w).

Definition C_ov_time_total (f : ptr) (i : Z) : go NS float := fun w =>
  let '(r, n) := ov_time_total f i (native w) in
  Returned r (crossed n (ov_time_total_ev f i r) w).

Definition C_ov_time_tell (f : ptr) : go NS float := fun w =>
  let '(r, n) := ov_time_tell f (native w) in
  Returned r (crossed n (ov_time_tell_ev f r) w).

(** *** The Go functions *)

(** The package variable [loaded], read and assigned. *)
Definition get_loaded : go NS bool := fun w => Returned (loaded w) w.
Definition put_loaded (b : bool) : go NS unit := fun w => Returned tt (set_loaded b w).

(** [checkLoaded] (lines 227-231) *)
Definition checkLoaded : go NS unit :=
  l ← get_loaded;
  if negb l then panic not_loaded else mret tt.

(** [Load] (lines 73-87) *)
Definition Load : go NS error :=
  l ← get_loaded;
  if l : bool then mret None
  else
    cres ← C_vorbisfile_load;
    if cres =? 0 then
      put_loaded true;;
      mret None
    else mret (Some "Error loading libvorbisfile shared library/dll").

(** [IsLoaded] (lines 90-93) *)
Definition IsLoaded : go NS bool := get_loaded.

(** [Fopen] (lines 97-111) *)
Definition Fopen (path : string) : go NS (ref * error) :=
  checkLoaded;;
  f ← var_File;
  p ← C_malloc;
  put_vf f p;;
  cpath ← C_CString path;
  defer (C_free cpath)
    (v ← get_vf f;
     cerr ← C_ov_fopen path cpath v;
     if cerr =? 0 then mret (f, None)
     else mret (0%N, Errorf "Error:" " from Fopen" (errCodes_index cerr))).

(** [Clear] (lines 114-124) *)
Definition Clear (f : ref) : go NS error :=
  checkLoaded;;
  v ← get_vf f;
  cerr ← C_ov_clear v;
  if cerr =? 0 then
    v' ← get_vf f;
    C_free v';;
    put_vf f 0%N;;
    mret None
  else mret (Errorf "Error:" " from Clear" (errCodes_index cerr)).

(** [Read] (lines 128-146) *)
Definition Read (f : ref) (buffer : ptr) (length : Z) (bigendianp : bool)
    (word : Z) (sgned : bool) : go NS (Z * Z * error) :=
  checkLoaded;;
  let cbigendianp := if bigendianp then 1 else 0 in
  let csgned := if sgned then 1 else 0 in
  let bitstream := 0 in
  v ← get_vf f;
  '(cres, bitstream) ← C_ov_read v buffer (C_int length) cbigendianp (C_int word) csgned bitstream;
  if cres <? 0 then
    mret (0, 0, Errorf "Error:" " from Read()" (errCodes_index (C_int cres)))
  else mret (Go_int cres, Go_int bitstream, None).

(** [Info] (lines 150-165) *)
Definition Info (f : ref) (link : Z) (info : ref) : go NS error :=
  checkLoaded;;
  v ← get_vf f;
  vi ← C_ov_info v (C_int link);
  match vi : option vorbis_info with
  | None => mret (Some "Error returned from 'ov_info'")
  | Some vi =>
      put_info info (fun o => Build_VorbisInfo (Go_int (C_int (version vi))) (Channels o)
        (Rate o) (BitrateUpper o) (BitrateNominal o) (BitrateLower o) (BitrateWindow o));;
      put_info info (fun o => Build_VorbisInfo (Version o) (Go_int (C_int (channels vi)))
        (Rate o) (BitrateUpper o) (BitrateNominal o) (BitrateLower o) (BitrateWindow o));;
      put_info info (fun o => Build_VorbisInfo (Version o) (Channels o)
        (Go_int (C_long (rate vi))) (BitrateUpper o) (BitrateNominal o) (BitrateLower o)
        (BitrateWindow o));;
      put_info info (fun o => Build_VorbisInfo (Version o) (Channels o) (Rate o)
        (Go_int (C_long (bitrate_upper vi))) (BitrateNominal o) (BitrateLower o)
        (BitrateWindow o));;
      put_info info (fun o => Build_VorbisInfo (Version o) (Channels o) (Rate o)
        (BitrateUpper o) (Go_int (C_long (bitrate_nominal vi))) (BitrateLower o)
        (BitrateWindow o));;
      put_info info (fun o => Build_VorbisInfo (Version o) (Channels o) (Rate o)
        (BitrateUpper o) (BitrateNominal o) (Go_int (C_long (bitrate_lower vi)))
        (BitrateWindow o));;
      put_info info (fun o => Build_VorbisInfo (Version o) (Channels o) (Rate o)
        (BitrateUpper o) (BitrateNominal o) (BitrateLower o)
        (Go_int (C_long (bitrate_window vi))));;
      mret None
  end.

(** [Seekable] (lines 168-176) *)
Definition Seekable (f : ref) : go NS bool :=
  checkLoaded;;
  v ← get_vf f;
  cres ← C_ov_seekable v;
  if cres =? 0 then mret false else mret true.

(** [PcmSeek] (lines 182-190) *)
Definition PcmSeek (f : ref) (pos : Z) : go NS error :=
  checkLoaded;;
  v ← get_vf f;
  cres ← C_ov_pcm_seek v (C_ogg_int64_t pos);
  if cres =? 0 then mret None
  else mret (Errorf "Error:" " from 'ov_pcm_seek()'" (errCodes_index (C_int cres))).

(** [PcmTotal] (lines 194-202) *)
Definition PcmTotal (f : ref) (i : Z) : go NS (Z * error) :=
  checkLoaded;;
  v ← get_vf f;
  cres ← C_ov_pcm_total v (C_int i);
  if cres <? 0 then
    mret (0, Errorf "Error:" " from 'ov_pcm_total()'" (errCodes_index (C_int cres)))
  else mret (Go_int64 cres, None).

(** [TimeTotal] (lines 206-214) *)
Definition TimeTotal (f : ref) (i : Z) : go NS (float * error) :=
  checkLoaded;;
  v ← get_vf f;
  cres ← C_ov_time_total v (C_int i);
  if PrimFloat.ltb cres 0%float then
    mret (0%float, Errorf "Error:" " from 'ov_time_total()'"
                     (errCodes_index (C_int_of_float indefinite_int32 cres)))
  else mret (cres, None).

(** [TimeTell] (lines 217-225) *)
Definition TimeTell (f : ref) : go NS (float * error) :=
  checkLoaded;;
  v ← get_vf f;
  cres ← C_ov_time_tell v;
  if PrimFloat.ltb cres 0%float then
    mret (0%float, Errorf "Error:" " from 'ov_time_total()'"
                     (errCodes_index (C_int_of_float indefinite_int32 cres)))
  else mret (cres, None).

End Package.

(** ** Programs over the package: sequences of calls *)

(** One call of an exported function, with its arguments. *)
Inductive call :=
| Call_Load
| Call_IsLoaded
| Call_Fopen (path : string)
| Call_Clear (f : ref)
| Call_Read (f : ref) (buffer : ptr) (length : Z) (bigendianp : bool) (word : Z) (sgned : bool)
| Call_Info (f : ref) (link : Z) (info : ref)
| Call_Seekable (f : ref)
| Call_PcmSeek (f : ref) (pos : Z)
| Call_PcmTotal (f : ref) (i : Z)
| Call_TimeTotal (f : ref) (i : Z)
| Call_TimeTell (f : ref).

(** What a call returns, by result signature. *)
Inductive result :=
| R_error (e : error)
| R_bool (b : bool)
| R_File (f : ref) (e : error)
| R_Read (n bitstream : Z) (e : error)
| R_int64 (n : Z) (e : error)
| R_float64 (d : float) (e : error).

(** Every function but [Load] and [IsLoaded] starts with [checkLoaded()]. *)
Definition guarded (c : call) : bool :=
  match c with
  | Call_Load | Call_IsLoaded => false
  | _ => true
  end.

(** The lifecycle of a handle a caller holds: open from the [Fopen] that
    returned it until a [Clear] of it returns [nil]. *)
Inductive phase := Open | Closed.

Section Programs.
Context {codes : OvCodes} {plat : Platform} {NS : Type} {lib : Vorbisfile NS}.

Definition exec (c : call) : go NS result :=
  match c with
  | Call_Load => e ← Load; mret (R_error e)
  | Call_IsLoaded => b ← IsLoaded; mret (R_bool b)
  | Call_Fopen path => '(f, e) ← Fopen path; mret (R_File f e)
  | Call_Clear f => e ← Clear f; mret (R_error e)
  | Call_Read f buffer length bigendianp word sgned =>
      '(n, b, e) ← Read f buffer length bigendianp word sgned; mret (R_Read n b e)
  | Call_Info f link info => e ← Info f link info; mret (R_error e)
  | Call_Seekable f => b ← Seekable f; mret (R_bool b)
  | Call_PcmSeek f pos => e ← PcmSeek f pos; mret (R_error e)
  | Call_PcmTotal f i => '(n, e) ← PcmTotal f i; mret (R_int64 n e)
  | Call_TimeTotal f i => '(d, e) ← TimeTotal f i; mret (R_float64 d e)
  | Call_TimeTell f => '(d, e) ← TimeTell f; mret (R_float64 d e)
  end.

(** The handles' lifecycle after call [c] ended in [o]. *)
Definition track (c : call) (o : outcome NS result) (ph : gmap N phase) : gmap N phase :=
  match c, o with
  | Call_Fopen _, Returned (R_File f None) _ => <[ f := Open ]> ph
  | Call_Clear f, Returned (R_error None) _ => alter (fun _ => Closed) f ph
  | _, _ => ph
  end.

(** A caller that goes on after each call, also after a recovered panic. *)
Definition step (c : call) (s : world NS * gmap N phase) : world NS * gmap N phase :=
  let o := exec c (fst s) in (state_of o, track c o (snd s)).

Fixpoint run (cs : list call) (s : world NS * gmap N phase) : world NS * gmap N phase :=
  match cs with
  | [] => s
  | c :: cs' => run cs' (step c s)
  end.

(** The process as it starts: [loaded] false, nothing allocated. *)
Definition start (n : NS) : world NS := World false ∅ ∅ ∅ n [].

End Programs.

(** How often the resolver [vorbisfile_load] was called. *)
Fixpoint resolver_calls (t : list event) : nat :=
  match t with
  | [] => 0%nat
  | vorbisfile_load_ev _ :: t' => S (resolver_calls t')
  | _ :: t' => resolver_calls t'
  end.

(** ** A scripted native library

    A stand-in for libvorbisfile that hands out the statuses of a script,
    one per native result, and [0] once the script is used up. *)

Definition next (s : list Z) : Z * list Z :=
  match s with
  | [] => (0, [])
  | r :: s' => (r, s')
  end.

Definition float_of_Z (z : Z) : float :=
  match z with
  | Z0 => 0%float
  | Zpos p => SF2Prim (S754_finite false p 0)
  | Zneg p => SF2Prim (S754_finite true p 0)
  end.

Definition stereo_44k : vorbis_info :=
  {| version := 0; channels := 2; rate := 44100; bitrate_upper := 0;
     bitrate_nominal := 128000; bitrate_lower := 0; bitrate_window := 0 |}.

Definition scripted : Vorbisfile (list Z) := {|
  vorbisfile_load := next;
  ov_fopen := fun _ _ => next;
  ov_clear := fun _ => next;
  ov_read := fun _ _ _ _ _ _ _ s =>
    let '(r, s1) := next s in let '(b, s2) := next s1 in (r, b, s2);
  ov_info := fun _ _ s =>
    let '(r, s1) := next s in (if r =? 0 then Some stereo_44k else None, s1);
  ov_seekable := fun _ => next;
  ov_pcm_seek := fun _ _ => next;
  ov_pcm_total := fun _ _ => next;
  ov_time_total := fun _ _ s => let '(r, s1) := next s in (float_of_Z r, s1);
  ov_time_tell := fun _ s => let '(r, s1) := next s in (float_of_Z r, s1)
|}.

(** amd64: an unrepresentable float64 converts to the smallest int32. *)
Definition amd64 : Platform := {| indefinite_int32 := fun _ => - 2 ^ 31 |}.

(** The process after a [Load] that succeeded, the native library still
    to hand out [script]. *)
Definition after_Load (script : list Z) : world (list Z) :=
  fst (run (codes := libvorbis) (plat := amd64) (lib := scripted)
         [Call_Load] (start (0 :: script), ∅)).

(** The process after [Load] and an [Fopen] that succeeded: one open
    handle, at address 1, on the native block at address 1. *)
Definition after_Fopen (script : list Z) : world (list Z) :=
  fst (run (codes := libvorbis) (plat := amd64) (lib := scripted)
         [Call_Load; Call_Fopen "music.ogg"] (start (0 :: 0 :: script), ∅)).

(** ** Vocabulary of the properties *)

(** What the callers' handles and the Go heap agree on: a handle a caller
    holds is a [File] of the heap, and its [vf] is set exactly while the
    handle is open. *)
Definition coherent {NS : Type} (s : world NS * gmap N phase) : Prop :=
  forall (f : ref) (p : phase),
    s.2 !! f = Some p ->
    exists o : File, files s.1 !! f = Some o /\ (vf o <> 0%N <-> p = Open).

(** [strings.Contains(s, sub)] *)
Fixpoint contains (sub s : string) : bool :=
  String.prefix sub s ||
  match s with
  | EmptyString => false
  | String _ s' => contains sub s'
  end.

(** The names an operation goes by: the Go function and the native
    function it calls. *)
Definition names (c : call) : list string :=
  match c with
  | Call_Load => ["Load"; "vorbisfile_load"]
  | Call_IsLoaded => ["IsLoaded"]
  | Call_Fopen _ => ["Fopen"; "ov_fopen"]
  | Call_Clear _ => ["Clear"; "ov_clear"]
  | Call_Read _ _ _ _ _ _ => ["Read"; "ov_read"]
  | Call_Info _ _ _ => ["Info"; "ov_info"]
  | Call_Seekable _ => ["Seekable"; "ov_seekable"]
  | Call_PcmSeek _ _ => ["PcmSeek"; "ov_pcm_seek"]
  | Call_PcmTotal _ _ => ["PcmTotal"; "ov_pcm_total"]
  | Call_TimeTotal _ _ => ["TimeTotal"; "ov_time_total"]
  | Call_TimeTell _ => ["TimeTell"; "ov_time_tell"]
  end.

(** The text [msg] names the operation [c]. *)
Definition identifies (c : call) (msg : string) : bool :=
  existsb (fun nm => contains nm msg) (names c).

(** The text [msg] spells one of the eleven identifiers of the taxonomy. *)
Definition names_a_code {codes : OvCodes} (msg : string) : bool :=
  existsb (fun cn => contains cn.2 msg) enumeration.

(** The [error] among the results of a call. *)
Definition error_of (r : result) : error :=
  match r with
  | R_error e => e
  | R_bool _ => None
  | R_File _ e => e
  | R_Read _ _ e => e
  | R_int64 _ e => e
  | R_float64 _ e => e
  end.

(** The status a native call came back with, as the key [C.int(cres)] the
    Go code looks up in [errCodes]. *)
Definition status {plat : Platform} (e : event) : option Z :=
  match e with
  | ov_fopen_ev _ _ _ r => Some (C_int r)
  | ov_clear_ev _ r => Some (C_int r)
  | ov_read_ev _ _ _ _ _ _ r _ => Some (C_int r)
  | ov_pcm_seek_ev _ _ r => Some (C_int r)
  | ov_pcm_total_ev _ _ r => Some (C_int r)
  | ov_time_total_ev _ _ d => Some (C_int_of_float indefinite_int32 d)
  | ov_time_tell_ev _ d => Some (C_int_of_float indefinite_int32 d)
  | _ => None
  end.

(** How the error text of a call ends: what follows [" from "] in the
    format string of the function. *)
Definition label (c : call) : string :=
  match c with
  | Call_Fopen _ => "Fopen"
  | Call_Clear _ => "Clear"
  | Call_Read _ _ _ _ _ _ => "Read()"
  | Call_PcmSeek _ _ => "'ov_pcm_seek()'"
  | Call_PcmTotal _ _ => "'ov_pcm_total()'"
  | Call_TimeTotal _ _ => "'ov_time_total()'"
  | _ => ""
  end.

(** The handle a call is made on. *)
Definition handle_of (c : call) : option ref :=
  match c with
  | Call_Load | Call_IsLoaded | Call_Fopen _ => None
  | Call_Clear f => Some f
  | Call_Read f _ _ _ _ _ => Some f
  | Call_Info f _ _ => Some f
  | Call_Seekable f => Some f
  | Call_PcmSeek f _ => Some f
  | Call_PcmTotal f _ => Some f
  | Call_TimeTotal f _ => Some f
  | Call_TimeTell f => Some f
  end.

(** The caller makes [c] on a handle it holds: [nil], or one [Fopen]
    returned to it. *)
Definition holds (ph : gmap N phase) (c : call) : bool :=
  match handle_of c with
  | None => true
  | Some f => match ph !! f with Some _ => true | None => N.eqb f 0 end
  end.

Section Callers.
Context {codes : OvCodes} {plat : Platform} {NS : Type} {lib : Vorbisfile NS}.

(** A sequence of calls in which every handle passed is one the caller
    holds when it makes the call. *)
Fixpoint scoped (cs : list call) (s : world NS * gmap N phase) : bool :=
  match cs with
  | [] => true
  | c :: cs' => holds (snd s) c && scoped cs' (step c s)
  end.

End Callers.

(** What the package keeps of the C heap for the handles it gave out:
    [NULL] is never a block, [nil] never a [File], the block of an open
    handle is allocated, and two open handles have two blocks. *)
Definition tidy {NS : Type} (s : world NS * gmap N phase) : Prop :=
  coherent s /\
  files (fst s) !! 0%N = None /\
  (0%N ∉ cheap (fst s)) /\
  (forall (f : ref) (o : File),
     snd s !! f = Some Open -> files (fst s) !! f = Some o -> vf o ∈ cheap (fst s)) /\
  (forall (f1 f2 : ref) (o1 o2 : File),
     snd s !! f1 = Some Open -> snd s !! f2 = Some Open ->
     files (fst s) !! f1 = Some o1 -> files (fst s) !! f2 = Some o2 ->
     f1 <> f2 -> vf o1 <> vf o2).

(** * Properties *)

(** ** Conversions *)

Lemma wrap_range bits z :
  0 < bits -> - 2 ^ (bits - 1) <= wrap bits z < 2 ^ (bits - 1).
Proof.
  intros Hb. unfold wrap.
  assert (H2 : 2 ^ bits = 2 * 2 ^ (bits - 1)).
  { replace bits with (Z.succ (bits - 1)) at 1 by lia.
    rewrite Z.pow_succ_r by lia. reflexivity. }
  assert (Hp : 0 < 2 ^ (bits - 1)) by (apply Z.pow_pos_nonneg; lia).
  pose proof (Z.mod_pos_bound (z + 2 ^ (bits - 1)) (2 ^ bits)) as Hm.
  lia.
Qed.

Lemma wrap_small bits z :
  0 < bits -> - 2 ^ (bits - 1) <= z < 2 ^ (bits - 1) -> wrap bits z = z.
Proof.
  intros Hb Hz. unfold wrap.
  assert (H2 : 2 ^ bits = 2 * 2 ^ (bits - 1)).
  { replace bits with (Z.succ (bits - 1)) at 1 by lia.
    rewrite Z.pow_succ_r by lia. reflexivity. }
  rewrite Z.mod_small by lia. lia.
Qed.

Lemma wrap_idemp bits z : 0 < bits -> wrap bits (wrap bits z) = wrap bits z.
Proof. intros Hb. apply wrap_small; [assumption | apply wrap_range; assumption]. Qed.

Lemma Go_int_C_long z : Go_int (C_long z) = C_long z.
Proof. apply wrap_idemp. lia. Qed.

Lemma Go_int64_C_ogg z : Go_int64 (C_ogg_int64_t z) = C_ogg_int64_t z.
Proof. apply wrap_idemp. lia. Qed.

Lemma C_int_idemp z : C_int (C_int z) = C_int z.
Proof. apply wrap_idemp. lia. Qed.

(** A [C.int] widened to [C.long] or Go's [int] keeps its value. *)
Lemma Go_int_C_int z : Go_int (C_int z) = C_int z.
Proof.
  apply wrap_small; [lia |].
  pose proof (wrap_range 32 z ltac:(lia)) as H. unfold C_int.
  change (2 ^ (32 - 1)) with 2147483648 in H.
  change (2 ^ (64 - 1)) with 9223372036854775808. lia.
Qed.



(** ** Running the Go functions *)

(** Unfolds the Go functions and the monad down to the world. *)
Ltac unfold_go :=
  unfold Load, IsLoaded, Fopen, Clear, Read, Info, Seekable, PcmSeek, PcmTotal,
    TimeTotal, TimeTell, checkLoaded, get_loaded, put_loaded, panic, defer,
    var_File, get_vf, put_vf, put_info, C_malloc, C_CString, C_free,
    C_vorbisfile_load, C_ov_fopen, C_ov_clear, C_ov_read, C_ov_info,
    C_ov_seekable, C_ov_pcm_seek, C_ov_pcm_total, C_ov_time_total,
    C_ov_time_tell, Errorf, mbind, go_bind, mret, go_ret in *.

(** Destructs every scrutinee on the way to the end of a call. *)
Ltac walk := repeat first [progress simplify_eq | progress simpl in * | case_match].

Section Proofs.
Context {codes : OvCodes} {plat : Platform} {NS : Type} {lib : Vorbisfile NS}.

Lemma Clear_spec (f : ref) (o : File) (w : world NS) :
  loaded w = true -> files w !! f = Some o ->
  Clear f w =
    let '(r, n) := ov_clear (vf o) (native w) in
    if C_int r =? 0 then
      Returned None
        (World (loaded w) (<[ f := {| vf := 0%N |} ]> (files w)) (infos w)
           (cheap w ∖ {[ vf o ]}) n
           (trace w ++ [ov_clear_ev (vf o) (C_int r); C_free_ev (vf o)]))
    else
      Returned (Some ("Error:" +:+ errCodes_index (C_int r) +:+ " from Clear"))
        (World (loaded w) (files w) (infos w) (cheap w) n
           (trace w ++ [ov_clear_ev (vf o) (C_int r)])).
Proof.
  intros Hl Hf. unfold_go. rewrite Hl. simpl. rewrite Hf.
  destruct (ov_clear (vf o) (native w)) as [r n]. simpl.
  destruct (C_int r =? 0); simpl.
  - rewrite Hf. simpl. rewrite Hf. unfold crossed, set_cheap, set_files. simpl.
    rewrite ?Hl, <- ?app_assoc. reflexivity.
  - unfold crossed. simpl. rewrite ?Hl. reflexivity.
Qed.

Lemma Fopen_spec (path : string) (w : world NS) :
  loaded w = true ->
  let f := fresh ({[ 0%N ]} ∪ dom (files w)) in
  let p := fresh ({[ 0%N ]} ∪ cheap w) in
  let q := fresh ({[ 0%N ]} ∪ ({[ p ]} ∪ cheap w)) in
  Fopen path w =
    let '(r, n) := ov_fopen path p (native w) in
    let w' :=
      World (loaded w) (<[ f := {| vf := p |} ]> (files w)) (infos w)
        ({[ p ]} ∪ cheap w) n
        (trace w ++ [C_malloc_ev p; C_CString_ev path q;
                     ov_fopen_ev path q p (C_int r); C_free_ev q]) in
    if C_int r =? 0 then Returned (f, None) w'
    else Returned (0%N, Some ("Error:" +:+ errCodes_index (C_int r) +:+ " from Fopen")) w'.
Proof.
  intros Hl f p q. unfold_go. rewrite Hl. simpl.
  fold f. rewrite lookup_insert_eq. simpl. fold p. fold q.
  rewrite lookup_insert_eq. simpl.
  destruct (ov_fopen path p (native w)) as [r n]. simpl.
  assert (Hq : ({[ q ]} ∪ ({[ p ]} ∪ cheap w)) ∖ {[ q ]} = {[ p ]} ∪ cheap w).
  { pose proof (is_fresh ({[ 0%N ]} ∪ ({[ p ]} ∪ cheap w))) as Hfr. fold q in Hfr.
    apply set_eq. intros x.
    rewrite elem_of_difference, (elem_of_union {[ q ]}), !elem_of_singleton.
    split.
    - intros [[Hx | Hx] Hne]; [contradiction | exact Hx].
    - intros Hx. split; [right; exact Hx |].
      intros ->. apply Hfr, elem_of_union_r, Hx. }
  destruct (C_int r =? 0); simpl; unfold crossed, set_cheap, set_files; simpl;
    rewrite insert_insert_eq, Hq, ?Hl, <- !app_assoc; reflexivity.
Qed.

(** The remaining functions, for a handle that exists, once loaded. *)

Lemma Read_spec (f : ref) (buffer : ptr) (length : Z) (bigendianp : bool)
    (word : Z) (sgned : bool) (o : File) (w : world NS) :
  loaded w = true -> files w !! f = Some o ->
  let cb := if bigendianp then 1 else 0 in
  let cs := if sgned then 1 else 0 in
  Read f buffer length bigendianp word sgned w =
    let '(r, b, n) := ov_read (vf o) buffer (C_int length) cb (C_int word) cs 0 (native w) in
    let w' :=
      crossed n (ov_read_ev (vf o) buffer (C_int length) cb (C_int word) cs
                   (C_long r) (C_int b)) w in
    if C_long r <? 0 then
      Returned (0, 0, Some ("Error:" +:+ errCodes_index (C_int (C_long r)) +:+ " from Read()")) w'
    else Returned (C_long r, C_int b, None) w'.
Proof.
  intros Hl Hf cb cs. unfold_go. rewrite Hl. simpl. rewrite Hf. simpl.
  fold cb. fold cs.
  destruct (ov_read (vf o) buffer (C_int length) cb (C_int word) cs 0 (native w))
    as [[r b] n]. simpl.
  destruct (C_long r <? 0); simpl; [reflexivity |].
  rewrite Go_int_C_long, Go_int_C_int. reflexivity.
Qed.

Lemma PcmSeek_spec (f : ref) (pos : Z) (o : File) (w : world NS) :
  loaded w = true -> files w !! f = Some o ->
  PcmSeek f pos w =
    let '(r, n) := ov_pcm_seek (vf o) (C_ogg_int64_t pos) (native w) in
    let w' := crossed n (ov_pcm_seek_ev (vf o) (C_ogg_int64_t pos) (C_int r)) w in
    if C_int r =? 0 then Returned None w'
    else Returned (Some ("Error:" +:+ errCodes_index (C_int r) +:+ " from 'ov_pcm_seek()'")) w'.
Proof.
  intros Hl Hf. unfold_go. rewrite Hl. simpl. rewrite Hf. simpl.
  destruct (ov_pcm_seek (vf o) (C_ogg_int64_t pos) (native w)) as [r n]. simpl.
  destruct (C_int r =? 0); simpl; [reflexivity |].
  rewrite C_int_idemp. reflexivity.
Qed.

Lemma PcmTotal_spec (f : ref) (i : Z) (o : File) (w : world NS) :
  loaded w = true -> files w !! f = Some o ->
  PcmTotal f i w =
    let '(r, n) := ov_pcm_total (vf o) (C_int i) (native w) in
    let w' := crossed n (ov_pcm_total_ev (vf o) (C_int i) (C_ogg_int64_t r)) w in
    if C_ogg_int64_t r <? 0 then
      Returned (0, Some ("Error:" +:+ errCodes_index (C_int (C_ogg_int64_t r))
                           +:+ " from 'ov_pcm_total()'")) w'
    else Returned (C_ogg_int64_t r, None) w'.
Proof.
  intros Hl Hf. unfold_go. rewrite Hl. simpl. rewrite Hf. simpl.
  destruct (ov_pcm_total (vf o) (C_int i) (native w)) as [r n]. simpl.
  destruct (C_ogg_int64_t r <? 0); simpl; [reflexivity |].
  rewrite Go_int64_C_ogg. reflexivity.
Qed.

Lemma TimeTotal_spec (f : ref) (i : Z) (o : File) (w : world NS) :
  loaded w = true -> files w !! f = Some o ->
  TimeTotal f i w =
    let '(r, n) := ov_time_total (vf o) (C_int i) (native w) in
    let w' := crossed n (ov_time_total_ev (vf o) (C_int i) r) w in
    if PrimFloat.ltb r 0%float then
      Returned (0%float,
                Some ("Error:" +:+ errCodes_index (C_int_of_float indefinite_int32 r)
                        +:+ " from 'ov_time_total()'")) w'
    else Returned (r, None) w'.
Proof.
  intros Hl Hf. unfold_go. rewrite Hl. simpl. rewrite Hf. simpl.
  destruct (ov_time_total (vf o) (C_int i) (native w)) as [r n]. simpl.
  destruct (PrimFloat.ltb r 0%float); reflexivity.
Qed.

Lemma TimeTell_spec (f : ref) (o : File) (w : world NS) :
  loaded w = true -> files w !! f = Some o ->
  TimeTell f w =
    let '(r, n) := ov_time_tell (vf o) (native w) in
    let w' := crossed n (ov_time_tell_ev (vf o) r) w in
    if PrimFloat.ltb r 0%float then
      Returned (0%float,
                Some ("Error:" +:+ errCodes_index (C_int_of_float indefinite_int32 r)
                        +:+ " from 'ov_time_total()'")) w'
    else Returned (r, None) w'.
Proof.
  intros Hl Hf. unfold_go. rewrite Hl. simpl. rewrite Hf. simpl.
  destruct (ov_time_tell (vf o) (native w)) as [r n]. simpl.
  destruct (PrimFloat.ltb r 0%float); reflexivity.
Qed.

Lemma Load_loaded (w : world NS) : loaded w = true -> Load w = Returned None w.
Proof. intros Hl. unfold_go. rewrite Hl. reflexivity. Qed.

Lemma Load_unloaded (w : world NS) :
  loaded w = false ->
  Load w =
    let '(r, n) := vorbisfile_load (native w) in
    Returned
      (if C_int r =? 0 then None
       else Some "Error loading libvorbisfile shared library/dll")
      (World (C_int r =? 0) (files w) (infos w) (cheap w) n
         (trace w ++ [vorbisfile_load_ev (C_int r)])).
Proof.
  intros Hl. unfold_go. rewrite Hl. simpl.
  destruct (vorbisfile_load (native w)) as [r n]. simpl.
  destruct (C_int r =? 0); simpl; unfold crossed, set_loaded; simpl;
    rewrite ?Hl; reflexivity.
Qed.

(** ** The guard *)

Lemma exec_not_loaded (c : call) (w : world NS) :
  guarded c = true -> loaded w = false -> exec c w = Panicked not_loaded w.
Proof.
  intros Hg Hl.
  destruct c; try discriminate Hg; unfold exec; unfold_go; rewrite Hl; reflexivity.
Qed.

Lemma not_loaded_not_nil : not_loaded <> nil_dereference.
Proof. discriminate. Qed.

Lemma exec_loaded_panics (c : call) (w w' : world NS) (msg : string) :
  loaded w = true -> exec c w = Panicked msg w' -> msg = nil_dereference.
Proof.
  intros Hl He.
  destruct c; unfold exec in He; unfold_go; rewrite Hl in He; walk; try reflexivity; try discriminate.
Qed.

(** ** What a call leaves alone *)

Lemma resolver_calls_app (t1 t2 : list event) :
  resolver_calls (t1 ++ t2) = (resolver_calls t1 + resolver_calls t2)%nat.
Proof.
  induction t1 as [| e t1 IH]; [reflexivity |].
  destruct e; simpl; rewrite IH; reflexivity.
Qed.

(** Only [Load] assigns [loaded], and only [Load] calls the resolver. *)
Lemma exec_frame (c : call) (w : world NS) :
  c <> Call_Load ->
  loaded (state_of (exec c w)) = loaded w /\
  resolver_calls (trace (state_of (exec c w))) = resolver_calls (trace w).
Proof.
  intros Hc.
  destruct c; [contradiction | ..]; unfold exec; unfold_go; walk;
    rewrite ?resolver_calls_app; simpl; split; (reflexivity || lia).
Qed.

Lemma exec_Load (w : world NS) :
  exec Call_Load w =
    match Load w with
    | Returned e w' => Returned (R_error e) w'
    | Panicked msg w' => Panicked msg w'
    end.
Proof. reflexivity. Qed.

Lemma step_loaded (c : call) (s : world NS * gmap N phase) :
  loaded s.1 = true ->
  loaded (step c s).1 = true /\
  resolver_calls (trace (step c s).1) = resolver_calls (trace s.1).
Proof.
  intros Hl. unfold step. simpl.
  assert (Hd : c = Call_Load \/ c <> Call_Load)
    by (destruct c; first [left; reflexivity | right; discriminate]).
  destruct Hd as [-> | Hc].
  - rewrite exec_Load, (Load_loaded _ Hl). simpl. split; [assumption | reflexivity].
  - destruct (exec_frame c s.1 Hc) as [H1 H2]. rewrite H1, H2. split; [assumption | reflexivity].
Qed.

Lemma run_loaded (cs : list call) (s : world NS * gmap N phase) :
  loaded s.1 = true ->
  loaded (run cs s).1 = true /\
  resolver_calls (trace (run cs s).1) = resolver_calls (trace s.1).
Proof.
  revert s. induction cs as [| c cs IH]; intros s Hl; simpl.
  - split; [assumption | reflexivity].
  - destruct (step_loaded c s Hl) as [H1 H2].
    destruct (IH (step c s) H1) as [H3 H4].
    split; [assumption | congruence].
Qed.

Lemma run_app (cs1 cs2 : list call) (s : world NS * gmap N phase) :
  run (cs1 ++ cs2) s = run cs2 (run cs1 s).
Proof. revert s. induction cs1 as [| c cs1 IH]; intros s; simpl; [reflexivity | apply IH]. Qed.

(** ** Handles *)
Lemma exec_files (c : call) (w : world NS) :
  (forall path, c <> Call_Fopen path) -> (forall f, c <> Call_Clear f) ->
  files (state_of (exec c w)) = files w.
Proof.
  intros Hfo Hcl.
  destruct c; try (exfalso; eapply Hfo; reflexivity);
    try (exfalso; eapply Hcl; reflexivity);
    unfold exec; unfold_go; walk; reflexivity.
Qed.

Lemma track_other (c : call) (o : outcome NS result) (ph : gmap N phase) :
  (forall path, c <> Call_Fopen path) -> (forall f, c <> Call_Clear f) ->
  track c o ph = ph.
Proof.
  intros Hfo Hcl.
  destruct c; try reflexivity;
    [exfalso; eapply Hfo; reflexivity | exfalso; eapply Hcl; reflexivity].
Qed.

Lemma exec_Fopen (path : string) (w : world NS) :
  exec (Call_Fopen path) w =
    match Fopen path w with
    | Returned (f, e) w' => Returned (R_File f e) w'
    | Panicked msg w' => Panicked msg w'
    end.
Proof. unfold exec, mbind, go_bind. destruct (Fopen path w) as [[f e] w' | msg w']; reflexivity. Qed.

Lemma exec_Clear (f : ref) (w : world NS) :
  exec (Call_Clear f) w =
    match Clear f w with
    | Returned e w' => Returned (R_error e) w'
    | Panicked msg w' => Panicked msg w'
    end.
Proof. reflexivity. Qed.

Lemma malloc_not_NULL (h : gset N) : fresh ({[ 0%N ]} ∪ h) <> 0%N.
Proof.
  pose proof (is_fresh ({[ 0%N ]} ∪ h)) as Hfr. intros Heq. apply Hfr.
  rewrite Heq. apply elem_of_union_l, elem_of_singleton. reflexivity.
Qed.

Lemma malloc_not_live (h : gset N) : fresh ({[ 0%N ]} ∪ h) ∉ h.
Proof.
  pose proof (is_fresh ({[ 0%N ]} ∪ h)) as Hfr. intros Hin. apply Hfr.
  apply elem_of_union_r. exact Hin.
Qed.

Lemma Clear_nil (f : ref) (w : world NS) :
  loaded w = true -> files w !! f = None -> Clear f w = Panicked nil_dereference w.
Proof. intros Hl Hf. unfold_go. rewrite Hl. simpl. rewrite Hf. reflexivity. Qed.

Lemma step_coherent (c : call) (s : world NS * gmap N phase) :
  coherent s -> coherent (step c s).
Proof.
  destruct s as [w ph]. intros Hco. unfold step. simpl.
  assert (Hcase : (exists path, c = Call_Fopen path) \/ (exists f, c = Call_Clear f) \/
                  ((forall path, c <> Call_Fopen path) /\ (forall f, c <> Call_Clear f))).
  { destruct c; eauto; right; right; split; intros; discriminate. }
  destruct Hcase as [[path ->] | [[f0 ->] | [Hfo Hcl]]].
  - (* Fopen *)
    destruct (loaded w) eqn:Hl.
    + rewrite exec_Fopen, (Fopen_spec path w Hl).
      destruct (ov_fopen path (fresh ({[ 0%N ]} ∪ cheap w)) (native w)) as [r n].
      destruct (C_int r =? 0); intros f p Hp; simpl in Hp |- *.
      * destruct (N.eq_dec (fresh ({[ 0%N ]} ∪ dom (files w))) f) as [<- | Hne].
        -- rewrite lookup_insert_eq in Hp. injection Hp as <-.
           rewrite lookup_insert_eq. eexists. split; [reflexivity |]. simpl.
           split; [reflexivity | intros _; apply malloc_not_NULL].
        -- rewrite lookup_insert_ne in Hp by assumption.
           rewrite lookup_insert_ne by assumption. apply (Hco f p Hp).
      * destruct (Hco f p Hp) as (o & Ho & Hiff). simpl in Ho.
        assert (Hne : fresh ({[ 0%N ]} ∪ dom (files w)) <> f).
        { intros <-. apply (malloc_not_live (dom (files w))).
          apply elem_of_dom. eauto. }
        rewrite lookup_insert_ne by assumption. eauto.
    + rewrite exec_not_loaded by (reflexivity || assumption). exact Hco.
  - (* Clear *)
    destruct (loaded w) eqn:Hl.
    + rewrite exec_Clear. destruct (files w !! f0) as [o0 |] eqn:Hf0.
      * rewrite (Clear_spec f0 o0 w Hl Hf0).
        destruct (ov_clear (vf o0) (native w)) as [r n].
        destruct (C_int r =? 0); intros f p Hp; simpl in Hp |- *.
        -- destruct (N.eq_dec f0 f) as [<- | Hne].
           ++ rewrite lookup_alter_eq in Hp.
              destruct (ph !! f0) as [p0 |]; [| discriminate Hp].
              injection Hp as <-. rewrite lookup_insert_eq.
              eexists. split; [reflexivity |]. simpl.
              split; [intros H; contradiction | discriminate].
           ++ rewrite lookup_alter_ne in Hp by assumption.
              rewrite lookup_insert_ne by assumption. apply (Hco f p Hp).
        -- apply (Hco f p Hp).
      * rewrite (Clear_nil f0 w Hl Hf0). exact Hco.
    + rewrite exec_not_loaded by (reflexivity || assumption). exact Hco.
  - (* the other calls touch neither the Files nor the lifecycle *)
    rewrite track_other by assumption. intros f p Hp. simpl in *.
    rewrite exec_files by assumption. apply (Hco f p Hp).
Qed.

Lemma run_coherent (cs : list call) (s : world NS * gmap N phase) :
  coherent s -> coherent (run cs s).
Proof.
  revert s. induction cs as [| c cs IH]; intros s Hco; simpl; [exact Hco |].
  apply IH, step_coherent, Hco.
Qed.

End Proofs.

Section TaxonomyProofs.
Context {codes : OvCodes}.

Lemma errCodes_literal_sublist : errCodes_literal.*1 `sublist_of` enumeration.*1.
Proof. simpl. repeat first [apply sublist_nil | apply sublist_skip | apply sublist_cons]. Qed.

Lemma errCodes_literal_NoDup : NoDup (enumeration.*1) -> NoDup (errCodes_literal.*1).
Proof. intros Hd. exact (sublist_NoDup _ _ Hd errCodes_literal_sublist). Qed.

Lemma errCodes_literal_enumeration (c : Z) (s : string) :
  (c, s) ∈ enumeration -> c <> EbadHeader -> (c, s) ∈ errCodes_literal.
Proof.
  unfold enumeration, errCodes_literal. intros Hin Hne.
  repeat (apply elem_of_cons in Hin as [Hin | Hin];
          [injection Hin as -> ->; try contradiction;
           repeat first [apply list_elem_of_here | apply list_elem_of_further] |]).
  apply elem_of_nil in Hin. contradiction.
Qed.

Lemma errCodes_index_literal (c : Z) (s : string) :
  NoDup (enumeration.*1) -> (c, s) ∈ errCodes_literal -> errCodes_index c = s.
Proof.
  intros Hd Hin. unfold errCodes_index, errCodes.
  rewrite (elem_of_list_to_map_1 _ _ _ (errCodes_literal_NoDup Hd) Hin). reflexivity.
Qed.

Lemma errCodes_index_absent (c : Z) :
  c ∉ errCodes_literal.*1 -> errCodes_index c = "".
Proof.
  intros Hc. unfold errCodes_index, errCodes.
  rewrite (not_elem_of_list_to_map_1 _ _ Hc). reflexivity.
Qed.

Lemma enumeration_named (c : Z) (s : string) : (c, s) ∈ enumeration -> s <> "".
Proof.
  unfold enumeration. intros Hin.
  repeat (apply elem_of_cons in Hin as [Hin | Hin]; [injection Hin as -> ->; discriminate |]).
  apply elem_of_nil in Hin. contradiction.
Qed.

(** The constant [EbadHeader] has no entry in [errCodes]. *)
Lemma errCodes_index_EbadHeader :
  NoDup (enumeration.*1) -> errCodes_index EbadHeader = "".
Proof.
  intros Hd. apply errCodes_index_absent. simpl in *.
  unfold EbadHeader, Eread, Efault, Eimpl, Einval, EnotVorbis, Eversion, EnotAudio,
    EbadPacket, EbadLink, EnoSeek in *.
  rewrite !NoDup_cons in Hd. rewrite !not_elem_of_cons in *.
  intuition congruence.
Qed.

End TaxonomyProofs.

(** * The claims *)

Section Claims.
Context {codes : OvCodes} {plat : Platform} {NS : Type} {lib : Vorbisfile NS}.

(** C1, as the code has it: when the native open fails, [Fopen] returns
    [nil] and an error whose text carries the name [errCodes] has for the
    status, but the block it allocated for the decoder stays allocated: it
    was live before the call to [ov_fopen], it is live in the world [Fopen]
    returns in, and no [C.free] of it was issued (only the C copy of the
    path is freed, by the deferred call).  The claim asks for the release,
    which this path does not do. *)
Theorem Fopen_failure_keeps_block (path : string) (w : world NS) :
  loaded w = true ->
  C_int (fst (ov_fopen path (fresh ({[ 0%N ]} ∪ cheap w)) (native w))) <> 0 ->
  let p := fresh ({[ 0%N ]} ∪ cheap w) in
  exists (w' : world NS) (t : list event),
    Fopen path w =
      Returned (0%N, Some ("Error:" +:+ errCodes_index (C_int (fst (ov_fopen path p (native w))))
                             +:+ " from Fopen")) w' /\
    (p ∉ cheap w) /\ cheap w' = {[ p ]} ∪ cheap w /\
    trace w' = trace w ++ t /\ C_malloc_ev p ∈ t /\ (C_free_ev p ∉ t).
Proof.
  intros Hl Hr p. fold p in Hr. rewrite (Fopen_spec path w Hl). fold p.
  destruct (ov_fopen path p (native w)) as [r n]. simpl in Hr |- *.
  destruct (Z.eqb_spec (C_int r) 0) as [H0 | _]; [contradiction |].
  eexists. eexists. split; [reflexivity |]. simpl.
  split; [apply malloc_not_live |]. split; [reflexivity |]. split; [reflexivity |].
  split; [apply list_elem_of_here |].
  assert (Hq : fresh ({[ 0%N ]} ∪ ({[ p ]} ∪ cheap w)) <> p).
  { intros Heq. apply (malloc_not_live ({[ p ]} ∪ cheap w)). rewrite Heq.
    apply elem_of_union_l, elem_of_singleton. reflexivity. }
  rewrite !not_elem_of_cons. repeat split; try discriminate.
  - intros Heq. injection Heq as Heq. apply Hq. symmetry. exact Heq.
  - apply not_elem_of_nil.
Qed.

(** C3: for a handle that exists, once the library is loaded, [Clear]
    calls [ov_clear] on the native reference; if that returns 0, it then
    frees the reference ([ov_clear] first, [C.free] second, nothing else),
    the block is no longer allocated, the handle's reference is [nil] and
    the result is [nil]; if it returns a nonzero status, the result is the
    error "Error:<name> from Clear" with the name [errCodes] has for the
    status, only [ov_clear] was called, nothing was freed and every handle
    is as it was. *)
Theorem Clear_releases_or_reports (f : ref) (o : File) (w : world NS) :
  loaded w = true -> files w !! f = Some o ->
  let cerr := C_int (fst (ov_clear (vf o) (native w))) in
  (cerr = 0 ->
   exists w', Clear f w = Returned None w' /\
     trace w' = trace w ++ [ov_clear_ev (vf o) 0; C_free_ev (vf o)] /\
     cheap w' = cheap w ∖ {[ vf o ]} /\
     files w' = <[ f := {| vf := 0%N |} ]> (files w)) /\
  (cerr <> 0 ->
   exists w', Clear f w =
       Returned (Some ("Error:" +:+ errCodes_index cerr +:+ " from Clear")) w' /\
     trace w' = trace w ++ [ov_clear_ev (vf o) cerr] /\
     cheap w' = cheap w /\
     files w' = files w).
Proof.
  intros Hl Hf cerr. rewrite (Clear_spec f o w Hl Hf). subst cerr.
  destruct (ov_clear (vf o) (native w)) as [r n]. simpl.
  destruct (Z.eqb_spec (C_int r) 0) as [H0 | H0]; split; intros H; try contradiction.
  - eexists. split; [reflexivity |]. simpl. rewrite H0. auto.
  - eexists. split; [reflexivity |]. simpl. auto.
Qed.

Lemma Load_ok_loaded (w0 w1 : world NS) :
  Load w0 = Returned None w1 -> loaded w1 = true.
Proof.
  intros H. destruct (loaded w0) eqn:Hl.
  - rewrite (Load_loaded w0 Hl) in H. injection H as <-. exact Hl.
  - rewrite (Load_unloaded w0 Hl) in H.
    destruct (vorbisfile_load (native w0)) as [r n].
    destruct (C_int r =? 0); [| discriminate H].
    injection H as <-. reflexivity.
Qed.

(** C4: each of [Fopen], [Clear], [Read], [Info], [Seekable], [PcmSeek],
    [PcmTotal], [TimeTotal] and [TimeTell], called while [loaded] is
    false, panics with "libvorbisfile shared library/dll was not loaded":
    it returns no value, and the world is as it was.  Called while
    [loaded] is true, and so in any world a successful [Load] returned
    in, none of them ends in that panic. *)
Theorem guard_aborts_unless_loaded (c : call) (w : world NS) :
  guarded c = true ->
  (loaded w = false -> exec c w = Panicked not_loaded w) /\
  (loaded w = true -> forall w', exec c w <> Panicked not_loaded w') /\
  (forall w0, Load w0 = Returned None w -> forall w', exec c w <> Panicked not_loaded w').
Proof.
  intros Hg.
  assert (Hno : loaded w = true -> forall w', exec c w <> Panicked not_loaded w').
  { intros Hl w' He. apply not_loaded_not_nil.
    exact (exec_loaded_panics c w w' not_loaded Hl He). }
  split; [apply exec_not_loaded; assumption |].
  split; [exact Hno |].
  intros w0 Hload. apply Hno. exact (Load_ok_loaded w0 w Hload).
Qed.

(** C5: [Load] with [loaded] already true returns [nil] and leaves the
    world as it was, so the resolver is not called; with [loaded] false it
    calls the resolver once, and then a zero status sets [loaded] and
    returns [nil], a nonzero status leaves [loaded] false and returns an
    error.  Once [loaded] is true no sequence of calls, of [Load] or of
    anything else, calls the resolver again. *)
Theorem Load_idempotent (w : world NS) :
  (loaded w = true -> Load w = Returned None w) /\
  (loaded w = false ->
   let cres := C_int (fst (vorbisfile_load (native w))) in
   exists (e : error) (w' : world NS),
     Load w = Returned e w' /\
     trace w' = trace w ++ [vorbisfile_load_ev cres] /\
     resolver_calls (trace w') = S (resolver_calls (trace w)) /\
     loaded w' = (cres =? 0) /\
     (cres = 0 -> e = None) /\
     (cres <> 0 -> e = Some "Error loading libvorbisfile shared library/dll")) /\
  (loaded w = true ->
   forall (cs : list call) (ph : gmap N phase),
     resolver_calls (trace (run cs (w, ph)).1) = resolver_calls (trace w)).
Proof.
  split; [apply Load_loaded |]. split.
  - intros Hl cres. rewrite (Load_unloaded w Hl). subst cres.
    destruct (vorbisfile_load (native w)) as [r n]. simpl.
    eexists. eexists. split; [reflexivity |]. simpl.
    split; [reflexivity |].
    split; [rewrite resolver_calls_app; simpl; lia |].
    split; [reflexivity |].
    destruct (Z.eqb_spec (C_int r) 0); split; intros; (reflexivity || contradiction).
  - intros Hl cs ph. exact (proj2 (run_loaded cs (w, ph) Hl)).
Qed.

(** C6: [loaded] is false when the process starts; a call that finds it
    false and leaves it true is a [Load] that returned [nil]; a call that
    finds it true leaves it true; so after any sequence of calls from a
    world where it is true, [IsLoaded] returns true. *)
Theorem loaded_monotone :
  (forall n : NS, loaded (start n) = false) /\
  (forall (c : call) (w : world NS),
     loaded w = false -> loaded (state_of (exec c w)) = true ->
     c = Call_Load /\ exists w', exec c w = Returned (R_error None) w') /\
  (forall (c : call) (w : world NS),
     loaded w = true -> loaded (state_of (exec c w)) = true) /\
  (forall (cs : list call) (s : world NS * gmap N phase),
     loaded s.1 = true ->
     IsLoaded (run cs s).1 = Returned true (run cs s).1).
Proof.
  split; [reflexivity |]. split; [| split].
  - intros c w Hl Hl'.
    assert (Hd : c = Call_Load \/ c <> Call_Load)
      by (destruct c; first [left; reflexivity | right; discriminate]).
    destruct Hd as [-> | Hc].
    + split; [reflexivity |]. rewrite exec_Load in *.
      rewrite (Load_unloaded w Hl) in *.
      destruct (vorbisfile_load (native w)) as [r n]. simpl in *.
      rewrite Hl'. eexists. reflexivity.
    + destruct (exec_frame c w Hc) as [H1 _]. congruence.
  - intros c w Hl. exact (proj1 (step_loaded c (w, ∅) Hl)).
  - intros cs s Hl. destruct (run_loaded cs s Hl) as [H _].
    unfold IsLoaded, get_loaded. rewrite H. reflexivity.
Qed.

(** C7, amended: for a handle that exists, once the library is loaded,
    [Read] calls [ov_read] once, with the length and the word size
    converted to [C.int], [bigendianp] and [sgned] as 1 for true and 0 for
    false, and a bitstream variable that starts at 0.  A result that is
    not negative is returned as the byte count, with the bitstream the
    native call left and no error; this covers the result 0, the end of
    the stream.  A negative result gives (0, 0) and the error
    "Error:<name> from Read()" with the name [errCodes] has for the
    status.  A length of 0 is no special case: the result is what
    [ov_read] returns for it. *)
Theorem Read_follows_native (f : ref) (buffer : ptr) (length : Z) (bigendianp : bool)
    (word : Z) (sgned : bool) (o : File) (w : world NS) :
  loaded w = true -> files w !! f = Some o ->
  let cb := if bigendianp then 1 else 0 in
  let cs := if sgned then 1 else 0 in
  let back := ov_read (vf o) buffer (C_int length) cb (C_int word) cs 0 (native w) in
  let cres := C_long (fst (fst back)) in
  let bitstream := C_int (snd (fst back)) in
  let w' :=
    crossed (snd back)
      (ov_read_ev (vf o) buffer (C_int length) cb (C_int word) cs cres bitstream) w in
  (0 <= cres ->
   Read f buffer length bigendianp word sgned w = Returned (cres, bitstream, None) w') /\
  (cres < 0 ->
   Read f buffer length bigendianp word sgned w =
     Returned (0, 0, Some ("Error:" +:+ errCodes_index (C_int cres) +:+ " from Read()")) w').
Proof.
  intros Hl Hf cb cs back cres bitstream w'.
  rewrite (Read_spec f buffer length bigendianp word sgned o w Hl Hf).
  fold cb cs. subst w' cres bitstream back.
  destruct (ov_read (vf o) buffer (C_int length) cb (C_int word) cs 0 (native w))
    as [[r b] n]. simpl.
  destruct (Z.ltb_spec (C_long r) 0); split; intros; (reflexivity || lia).
Qed.

(** C10: for a handle that exists, once the library is loaded, a negative
    native result makes [Read] return (0, 0) and an error, and makes
    [PcmTotal], [TimeTotal] and [TimeTell] each return 0 and an error. *)
Theorem failed_results_are_zero (f : ref) (o : File) (w : world NS) :
  loaded w = true -> files w !! f = Some o ->
  (forall (buffer : ptr) (length : Z) (bigendianp : bool) (word : Z) (sgned : bool),
     C_long (fst (fst (ov_read (vf o) buffer (C_int length) (if bigendianp then 1 else 0)
                         (C_int word) (if sgned then 1 else 0) 0 (native w)))) < 0 ->
     exists (e : string) (w' : world NS),
       Read f buffer length bigendianp word sgned w = Returned (0, 0, Some e) w') /\
  (forall i : Z,
     C_ogg_int64_t (fst (ov_pcm_total (vf o) (C_int i) (native w))) < 0 ->
     exists (e : string) (w' : world NS), PcmTotal f i w = Returned (0, Some e) w') /\
  (forall i : Z,
     PrimFloat.ltb (fst (ov_time_total (vf o) (C_int i) (native w))) 0%float = true ->
     exists (e : string) (w' : world NS),
       TimeTotal f i w = Returned (0%float, Some e) w') /\
  (PrimFloat.ltb (fst (ov_time_tell (vf o) (native w))) 0%float = true ->
   exists (e : string) (w' : world NS), TimeTell f w = Returned (0%float, Some e) w').
Proof.
  intros Hl Hf. repeat split.
  - intros buffer length bigendianp word sgned Hneg.
    rewrite (Read_spec f buffer length bigendianp word sgned o w Hl Hf).
    destruct (ov_read _ _ _ _ _ _ _ _) as [[r b] n]. simpl in Hneg |- *.
    apply Z.ltb_lt in Hneg. rewrite Hneg. eauto.
  - intros i Hneg. rewrite (PcmTotal_spec f i o w Hl Hf).
    destruct (ov_pcm_total _ _ _) as [r n]. simpl in Hneg |- *.
    apply Z.ltb_lt in Hneg. rewrite Hneg. eauto.
  - intros i Hneg. rewrite (TimeTotal_spec f i o w Hl Hf).
    destruct (ov_time_total _ _ _) as [r n]. simpl in Hneg |- *.
    rewrite Hneg. eauto.
  - intros Hneg. rewrite (TimeTell_spec f o w Hl Hf).
    destruct (ov_time_tell _ _) as [r n]. simpl in Hneg |- *.
    rewrite Hneg. eauto.
Qed.

Lemma Fopen_not_loaded (path : string) (w : world NS) :
  loaded w = false -> Fopen path w = Panicked not_loaded w.
Proof. intros Hl. unfold_go. rewrite Hl. reflexivity. Qed.

Lemma Clear_not_loaded (f : ref) (w : world NS) :
  loaded w = false -> Clear f w = Panicked not_loaded w.
Proof. intros Hl. unfold_go. rewrite Hl. reflexivity. Qed.

Lemma Fopen_handle (path : string) (w w' : world NS) (f : ref) :
  Fopen path w = Returned (f, None) w' ->
  f <> 0%N /\ exists o : File, files w' !! f = Some o /\ vf o <> 0%N.
Proof.
  intros H. destruct (loaded w) eqn:Hl.
  - rewrite (Fopen_spec path w Hl) in H.
    destruct (ov_fopen _ _ _) as [r n].
    destruct (C_int r =? 0); [| discriminate H].
    injection H as <- <-. split; [apply malloc_not_NULL |].
    eexists. simpl. rewrite lookup_insert_eq. split; [reflexivity |].
    simpl. apply malloc_not_NULL.
  - rewrite (Fopen_not_loaded path w Hl) in H. discriminate H.
Qed.

Lemma Fopen_no_handle (path : string) (w w' : world NS) (f : ref) (e : string) :
  Fopen path w = Returned (f, Some e) w' -> f = 0%N.
Proof.
  intros H. destruct (loaded w) eqn:Hl.
  - rewrite (Fopen_spec path w Hl) in H.
    destruct (ov_fopen _ _ _) as [r n].
    destruct (C_int r =? 0); [discriminate H |].
    injection H as <- _ _. reflexivity.
  - rewrite (Fopen_not_loaded path w Hl) in H. discriminate H.
Qed.

Lemma Clear_nulls (f : ref) (w w' : world NS) :
  Clear f w = Returned None w' -> files w' !! f = Some {| vf := 0%N |}.
Proof.
  intros H. destruct (loaded w) eqn:Hl.
  - destruct (files w !! f) as [o |] eqn:Hf.
    + rewrite (Clear_spec f o w Hl Hf) in H.
      destruct (ov_clear _ _) as [r n].
      destruct (C_int r =? 0); [| discriminate H].
      injection H as <-. simpl. apply lookup_insert_eq.
    + rewrite (Clear_nil f w Hl Hf) in H. discriminate H.
  - rewrite (Clear_not_loaded f w Hl) in H. discriminate H.
Qed.

(** C8: a handle [Fopen] returns with no error is not [nil] and its
    native reference is not [NULL]; with an error, [Fopen] returns [nil]
    for the handle; after a [Clear] that returns [nil] the handle's
    reference is [NULL].  So after any sequence of calls, from the start
    of the process or from any later world, every handle a caller was
    given in these calls is a [File] whose reference is set exactly when
    the handle is open. *)
Theorem reference_set_iff_open :
  (forall (path : string) (w w' : world NS) (f : ref),
     Fopen path w = Returned (f, None) w' ->
     f <> 0%N /\ exists o : File, files w' !! f = Some o /\ vf o <> 0%N) /\
  (forall (path : string) (w w' : world NS) (f : ref) (e : string),
     Fopen path w = Returned (f, Some e) w' -> f = 0%N) /\
  (forall (f : ref) (w w' : world NS),
     Clear f w = Returned None w' -> files w' !! f = Some {| vf := 0%N |}) /\
  (forall (w : world NS) (cs : list call) (f : ref) (p : phase),
     snd (run cs (w, ∅)) !! f = Some p ->
     exists o : File,
       files (fst (run cs (w, ∅))) !! f = Some o /\ (vf o <> 0%N <-> p = Open)).
Proof.
  split; [exact Fopen_handle |]. split; [exact Fopen_no_handle |].
  split; [exact Clear_nulls |].
  intros w cs.
  assert (Hco : coherent (run cs (w, ∅))).
  { apply run_coherent. intros f p Hp. simpl in Hp.
    rewrite lookup_empty in Hp. discriminate Hp. }
  exact Hco.
Qed.

Lemma errCodes_outside (c : Z) : c ∉ enumeration.*1 -> errCodes_index c = "".
Proof.
  intros Hc. apply errCodes_index_absent. intros Hin. apply Hc.
  exact (elem_of_sublist _ _ _ Hin errCodes_literal_sublist).
Qed.

(** C2, amended: with the eleven constants pairwise distinct, each of them
    other than [EbadHeader] is mapped to its own identifier, which is not
    empty; a status outside the eleven is mapped to the empty name, and
    the error built from it is still an error, its text the format with
    nothing where the name goes. *)
Theorem errCodes_names (c : Z) :
  NoDup (enumeration.*1) ->
  (forall s : string,
     (c, s) ∈ enumeration -> c <> EbadHeader -> errCodes_index c = s /\ s <> "") /\
  (c ∉ enumeration.*1 ->
   errCodes_index c = "" /\
   forall pre post : string, Errorf pre post (errCodes_index c) = Some (pre +:+ post)).
Proof.
  intros Hd. split.
  - intros s Hin Hne. split; [| exact (enumeration_named c s Hin)].
    apply (errCodes_index_literal c s Hd).
    exact (errCodes_literal_enumeration c s Hin Hne).
  - intros Hc. rewrite (errCodes_outside c Hc). split; reflexivity.
Qed.

Lemma contains_app_r (sub a b : string) :
  contains sub b = true -> contains sub (a +:+ b) = true.
Proof.
  intros Hb. induction a as [| ch a IH]; simpl; [exact Hb |].
  rewrite IH. apply orb_true_r.
Qed.

Lemma identifies_label (c : call) (name : string) :
  label c <> "" ->
  identifies c ("Error:" +:+ name +:+ " from " +:+ label c) = true.
Proof.
  intros Hl.
  destruct c; try (exfalso; apply Hl; reflexivity);
    unfold identifies, names, label; cbn [existsb]; rewrite !orb_true_iff;
    first [ left; apply (contains_app_r _ "Error:"), (contains_app_r _ name); reflexivity
          | right; left; apply (contains_app_r _ "Error:"), (contains_app_r _ name);
            reflexivity ].
Qed.

(** C9, amended: an error that [Fopen], [Clear], [Read], [PcmSeek],
    [PcmTotal] or [TimeTotal] returns has the text
    "Error:<name> from <label>", where <name> is what [errCodes] has for
    the status the native call of this operation came back with and
    <label> names the operation (its Go name or its native function).  An
    error of [TimeTell] starts with "Error:<name>" for the status of its
    native call.  The error of [Info] is the fixed text
    "Error returned from 'ov_info'": it names the operation and carries no
    code name, [ov_info] reporting failure by a null pointer. *)
Theorem errors_name_code_and_operation (c : call) (w w' : world NS) (r : result)
    (e : string) :
  exec c w = Returned r w' -> error_of r = Some e ->
  match c with
  | Call_Load => e = "Error loading libvorbisfile shared library/dll"
  | Call_Info _ _ _ => e = "Error returned from 'ov_info'" /\ identifies c e = true
  | Call_TimeTell _ =>
      exists (t : list event) (ev : event) (code : Z) (rest : string),
        trace w' = trace w ++ t /\ ev ∈ t /\ status ev = Some code /\
        e = "Error:" +:+ errCodes_index code +:+ rest
  | _ =>
      exists (t : list event) (ev : event) (code : Z),
        trace w' = trace w ++ t /\ ev ∈ t /\ status ev = Some code /\
        e = "Error:" +:+ errCodes_index code +:+ " from " +:+ label c /\
        identifies c e = true
  end.
Proof.
  intros He Hr.
  destruct c; unfold exec in He; unfold_go; walk.
  all: try discriminate Hr.
  all: try (injection Hr as <-).
  all: try reflexivity.
  all: try (split; reflexivity).
  all: rewrite <- ?app_assoc.
  all: try match goal with
            | |- context [ov_fopen_ev ?a ?b ?c ?d] =>
                eexists; exists (ov_fopen_ev a b c d); eexists
            | |- context [ov_clear_ev ?a ?b] =>
                eexists; exists (ov_clear_ev a b); eexists
            | |- context [ov_read_ev ?a ?b ?c ?d ?e ?f ?g ?h] =>
                eexists; exists (ov_read_ev a b c d e f g h); eexists
            | |- context [ov_pcm_seek_ev ?a ?b ?c] =>
                eexists; exists (ov_pcm_seek_ev a b c); eexists
            | |- context [ov_pcm_total_ev ?a ?b ?c] =>
                eexists; exists (ov_pcm_total_ev a b c); eexists
            | |- context [ov_time_total_ev ?a ?b ?c] =>
                eexists; exists (ov_time_total_ev a b c); eexists
            | |- context [ov_time_tell_ev ?a ?b] =>
                eexists; exists (ov_time_tell_ev a b); eexists; eexists
            end.
  all: (split; [reflexivity |]).
  all: (split; [repeat first [apply list_elem_of_here | apply list_elem_of_further] |]).
  all: (split; [reflexivity |]).
  all: rewrite ?C_int_idemp.
  all: match goal with
       | |- _ /\ _ => split; [reflexivity |]
       | |- _ => reflexivity
       end.
  all: match goal with
       | |- identifies ?c _ = true => apply (identifies_label c); discriminate
       end.
Qed.

End Claims.

(** * The claims on a run of the scripted library *)

Section Runs.
#[local] Existing Instance libvorbis.
#[local] Existing Instance scripted.
#[local] Existing Instance amd64.

Lemma after_Fopen_handle (script : list Z) :
  loaded (after_Fopen script) = true /\
  files (after_Fopen script) !! 1%N = Some {| vf := 1%N |}.
Proof. split; reflexivity. Qed.

(** C1 on a run: the native open of a file that is not Vorbis fails with
    [OV_ENOTVORBIS]; [Fopen] returns [nil] and the error, and block 1,
    allocated for the decoder, is still allocated. *)
Lemma Fopen_failure_keeps_block_run :
  exists (w' : world (list Z)) (t : list event),
    Fopen "notes.txt" (after_Load [-132]) =
      Returned (0%N, Some "Error:EnotVorbis from Fopen") w' /\
    (1%N ∉ cheap (after_Load [-132])) /\
    cheap w' = {[ 1%N ]} ∪ cheap (after_Load [-132]) /\
    trace w' = trace (after_Load [-132]) ++ t /\
    C_malloc_ev 1 ∈ t /\ (C_free_ev 1 ∉ t).
Proof.
  assert (Hl : loaded (after_Load [-132]) = true) by reflexivity.
  assert (Hr : C_int (fst (ov_fopen "notes.txt" (fresh ({[ 0%N ]} ∪ cheap (after_Load [-132])))
                             (native (after_Load [-132])))) <> 0)
    by (vm_compute; discriminate).
  exact (Fopen_failure_keeps_block "notes.txt" (after_Load [-132]) Hl Hr).
Defined.

Lemma libvorbis_distinct : NoDup (enumeration.*1).
Proof. apply (bool_decide_unpack _). vm_compute. exact I. Defined.

(** C2 on libvorbis' values: [OV_EINVAL] is named "Einval"; -3
    ([OV_HOLE], a status [ov_read] returns) is outside the eleven and is
    mapped to the empty name. *)
Lemma errCodes_names_libvorbis :
  (errCodes_index (-131) = "Einval" /\ "Einval" <> "") /\
  (errCodes_index (-3) = "" /\
   forall pre post : string, Errorf pre post (errCodes_index (-3)) = Some (pre +:+ post)).
Proof.
  split.
  - apply (proj1 (errCodes_names (-131) libvorbis_distinct) "Einval").
    + apply (bool_decide_unpack _). vm_compute. exact I.
    + vm_compute. discriminate.
  - apply (proj2 (errCodes_names (-3) libvorbis_distinct)).
    apply (bool_decide_unpack _). vm_compute. exact I.
Defined.

(** C2 fails as stated: the status -3 ([OV_HOLE]) is none of the eleven
    constants, its name is empty, and the error [Read] builds from it is
    "Error: from Read()". *)
Lemma errCodes_unknown_status_unnamed :
  ((-3) ∉ enumeration.*1) /\
  errCodes_index (-3) = "" /\
  exists w' : world (list Z),
    Read 1%N 0%N 4096 false 2 true (after_Fopen [-3]) =
      Returned (0, 0, Some "Error: from Read()") w'.
Proof.
  split; [apply (bool_decide_unpack _); vm_compute; exact I |].
  split; [reflexivity |].
  eexists. vm_compute. reflexivity.
Qed.

(** The constant [EbadHeader] has no entry in [errCodes]: on libvorbis'
    values its name is empty, while its neighbours have theirs. *)
Lemma errCodes_EbadHeader_libvorbis :
  EbadHeader = -133 /\ errCodes_index EbadHeader = "" /\
  errCodes_index EnotVorbis = "EnotVorbis" /\ errCodes_index Eversion = "Eversion".
Proof. repeat split. Qed.

(** C3 on a run: a [Clear] the native library accepts, and one it
    refuses with [OV_EFAULT]. *)
Lemma Clear_releases_or_reports_run :
  (exists w' : world (list Z),
     Clear 1%N (after_Fopen [0]) = Returned None w' /\
     trace w' = trace (after_Fopen [0]) ++ [ov_clear_ev 1 0; C_free_ev 1] /\
     cheap w' = cheap (after_Fopen [0]) ∖ {[ 1%N ]} /\
     files w' = <[ 1%N := {| vf := 0%N |} ]> (files (after_Fopen [0]))) /\
  (exists w' : world (list Z),
     Clear 1%N (after_Fopen [-129]) = Returned (Some "Error:Efault from Clear") w' /\
     trace w' = trace (after_Fopen [-129]) ++ [ov_clear_ev 1 (-129)] /\
     cheap w' = cheap (after_Fopen [-129]) /\
     files w' = files (after_Fopen [-129])).
Proof.
  split.
  - exact (proj1 (Clear_releases_or_reports 1%N {| vf := 1%N |} (after_Fopen [0])
                    eq_refl eq_refl) eq_refl).
  - assert (Hne : C_int (fst (ov_clear 1%N (native (after_Fopen [-129])))) <> 0)
      by (vm_compute; discriminate).
    exact (proj2 (Clear_releases_or_reports 1%N {| vf := 1%N |} (after_Fopen [-129])
                    eq_refl eq_refl) Hne).
Defined.

(** C4 on a run: [TimeTell] before any [Load] panics; after [Load] and
    [Fopen] it does not end in that panic. *)
Lemma guard_aborts_unless_loaded_run :
  exec (Call_TimeTell 1%N) (start []) = Panicked not_loaded (start []) /\
  (forall w', exec (Call_TimeTell 1%N) (after_Fopen []) <> Panicked not_loaded w').
Proof.
  split.
  - exact (proj1 (guard_aborts_unless_loaded (Call_TimeTell 1%N) (start []) eq_refl) eq_refl).
  - exact (proj1 (proj2 (guard_aborts_unless_loaded (Call_TimeTell 1%N) (after_Fopen [])
                           eq_refl)) eq_refl).
Defined.

(** C5 on a run: a second [Load] changes nothing; a [Load] the resolver
    refuses leaves [loaded] false; after the first success four more
    calls, three of them [Load], leave the resolver at its one call. *)
Lemma Load_idempotent_run :
  Load (after_Load []) = Returned None (after_Load []) /\
  (exists (e : error) (w' : world (list Z)),
     Load (start [-1]) = Returned e w' /\
     trace w' = trace (start [-1]) ++ [vorbisfile_load_ev (-1)] /\
     resolver_calls (trace w') = S (resolver_calls (trace (start [-1]))) /\
     loaded w' = false /\
     (-1 = 0 -> e = None) /\
     (-1 <> 0 -> e = Some "Error loading libvorbisfile shared library/dll")) /\
  resolver_calls
    (trace (fst (run [Call_Load; Call_Load; Call_Fopen "music.ogg"; Call_Load]
                   (after_Load [], ∅)))) = 1%nat.
Proof.
  split; [| split].
  - exact (proj1 (Load_idempotent (after_Load [])) eq_refl).
  - exact (proj1 (proj2 (Load_idempotent (start [-1]))) eq_refl).
  - exact (proj2 (proj2 (Load_idempotent (after_Load []))) eq_refl
             [Call_Load; Call_Load; Call_Fopen "music.ogg"; Call_Load] ∅).
Defined.

(** C6 on a run: after [Load], an [Fopen], a [Clear] and another [Load],
    [IsLoaded] returns true. *)
Lemma loaded_monotone_run :
  let s := run [Call_Fopen "music.ogg"; Call_Clear 1%N; Call_Load] (after_Load [], ∅) in
  IsLoaded (fst s) = Returned true (fst s).
Proof.
  exact (proj2 (proj2 (proj2 loaded_monotone))
           [Call_Fopen "music.ogg"; Call_Clear 1%N; Call_Load] (after_Load [], ∅) eq_refl).
Defined.

(** C7 on a run: a read of 4096 bytes, little endian and signed, that the
    native library answers in full with bitstream 0, and one it answers
    with [OV_EBADLINK]. *)
Lemma Read_follows_native_run :
  Read 1%N 64%N 4096 false 2 true (after_Fopen [4096; 0]) =
    Returned (4096, 0, None)
      (crossed [] (ov_read_ev 1 64 4096 0 2 1 4096 0) (after_Fopen [4096; 0])) /\
  Read 1%N 64%N 4096 false 2 true (after_Fopen [-137; 0]) =
    Returned (0, 0, Some "Error:EbadLink from Read()")
      (crossed [] (ov_read_ev 1 64 4096 0 2 1 (-137) 0) (after_Fopen [-137; 0])).
Proof.
  split.
  - assert (Hpos : 0 <= C_long (fst (fst (ov_read 1%N 64%N (C_int 4096) 0 (C_int 2) 1 0
                                            (native (after_Fopen [4096; 0]))))))
      by (vm_compute; discriminate).
    exact (proj1 (Read_follows_native 1%N 64%N 4096 false 2 true {| vf := 1%N |}
                    (after_Fopen [4096; 0]) eq_refl eq_refl) Hpos).
  - assert (Hneg : C_long (fst (fst (ov_read 1%N 64%N (C_int 4096) 0 (C_int 2) 1 0
                                       (native (after_Fopen [-137; 0]))))) < 0)
      by (vm_compute; reflexivity).
    exact (proj2 (Read_follows_native 1%N 64%N 4096 false 2 true {| vf := 1%N |}
                    (after_Fopen [-137; 0]) eq_refl eq_refl) Hneg).
Defined.

(** C7 fails as stated: with a length of 0 and a native library that
    answers [OV_EINVAL] to it, [Read] returns the error, not
    (0, bitstream, nil). *)
Lemma Read_zero_length_reports_error :
  (exists w' : world (list Z),
     Read 1%N 64%N 0 false 2 true (after_Fopen [-131]) =
       Returned (0, 0, Some "Error:Einval from Read()") w') /\
  ~ (exists (bitstream : Z) (w' : world (list Z)),
       Read 1%N 64%N 0 false 2 true (after_Fopen [-131]) =
         Returned (0, bitstream, None) w').
Proof.
  assert (H : Read 1%N 64%N 0 false 2 true (after_Fopen [-131]) =
              Returned (0, 0, Some "Error:Einval from Read()")
                (crossed [] (ov_read_ev 1 64 0 0 2 1 (-131) 0) (after_Fopen [-131])))
    by (vm_compute; reflexivity).
  split; [eexists; exact H |].
  intros (b & w' & Hb). rewrite H in Hb. discriminate Hb.
Qed.

(** C8 on a run: the handle is open after [Fopen] and its reference is
    set; it is closed after [Clear] and its reference is [NULL]. *)
Lemma reference_set_iff_open_run :
  (exists o : File,
     files (fst (run [Call_Load; Call_Fopen "music.ogg"] (start [], ∅))) !! 1%N = Some o /\
     (vf o <> 0%N <-> Open = Open)) /\
  (exists o : File,
     files (fst (run [Call_Load; Call_Fopen "music.ogg"; Call_Clear 1%N] (start [], ∅)))
       !! 1%N = Some o /\
     (vf o <> 0%N <-> Closed = Open)).
Proof.
  split.
  - exact (proj2 (proj2 (proj2 reference_set_iff_open)) (start [])
             [Call_Load; Call_Fopen "music.ogg"] 1%N Open eq_refl).
  - exact (proj2 (proj2 (proj2 reference_set_iff_open)) (start [])
             [Call_Load; Call_Fopen "music.ogg"; Call_Clear 1%N] 1%N Closed eq_refl).
Defined.

(** C9 on a run: the error of a [PcmSeek] the native library refuses with
    [OV_ENOSEEK]. *)
Lemma errors_name_code_and_operation_run :
  exists (t : list event) (ev : event) (code : Z),
    trace (state_of (exec (Call_PcmSeek 1%N 0) (after_Fopen [-138]))) =
      trace (after_Fopen [-138]) ++ t /\
    ev ∈ t /\ status ev = Some code /\
    "Error:EnoSeek from 'ov_pcm_seek()'" =
      "Error:" +:+ errCodes_index code +:+ " from " +:+ "'ov_pcm_seek()'" /\
    identifies (Call_PcmSeek 1%N 0) "Error:EnoSeek from 'ov_pcm_seek()'" = true.
Proof.
  assert (He : exec (Call_PcmSeek 1%N 0) (after_Fopen [-138]) =
               Returned (R_error (Some "Error:EnoSeek from 'ov_pcm_seek()'"))
                 (state_of (exec (Call_PcmSeek 1%N 0) (after_Fopen [-138]))))
    by (vm_compute; reflexivity).
  exact (errors_name_code_and_operation (Call_PcmSeek 1%N 0) (after_Fopen [-138]) _ _ _
           He eq_refl).
Defined.

(** C9 fails as stated, at [Info]: the error it returns when [ov_info]
    has no such stream is "Error returned from 'ov_info'", which spells
    none of the eleven code names and does not start with "Error:"; there
    is no status for it to map. *)
Lemma Info_error_names_no_code :
  (exists w' : world (list Z),
     exec (Call_Info 1%N 7 9%N) (after_Fopen [1]) =
       Returned (R_error (Some "Error returned from 'ov_info'")) w') /\
  names_a_code "Error returned from 'ov_info'" = false /\
  String.prefix "Error:" "Error returned from 'ov_info'" = false.
Proof.
  split; [eexists; vm_compute; reflexivity |]. split; reflexivity.
Qed.

(** [TimeTell] reports its failures under the name of [TimeTotal]: the
    text of its error is the one [TimeTotal] builds for the same status,
    and it spells neither "TimeTell" nor "ov_time_tell". *)
Lemma TimeTell_error_names_TimeTotal :
  (exists w' : world (list Z),
     TimeTell 1%N (after_Fopen [-131]) =
       Returned (0%float, Some "Error:Einval from 'ov_time_total()'") w') /\
  (exists w' : world (list Z),
     TimeTotal 1%N (-1) (after_Fopen [-131]) =
       Returned (0%float, Some "Error:Einval from 'ov_time_total()'") w') /\
  identifies (Call_TimeTell 1%N) "Error:Einval from 'ov_time_total()'" = false /\
  identifies (Call_TimeTotal 1%N (-1)) "Error:Einval from 'ov_time_total()'" = true.
Proof.
  split; [eexists; vm_compute; reflexivity |].
  split; [eexists; vm_compute; reflexivity |]. split; reflexivity.
Qed.

(** C10 on a run: each of the four, answered [OV_EINVAL] by the native
    library, returns zeros with its error. *)
Lemma failed_results_are_zero_run :
  (exists (e : string) (w' : world (list Z)),
     Read 1%N 64%N 4096 false 2 true (after_Fopen [-131]) = Returned (0, 0, Some e) w') /\
  (exists (e : string) (w' : world (list Z)),
     PcmTotal 1%N (-1) (after_Fopen [-131]) = Returned (0, Some e) w') /\
  (exists (e : string) (w' : world (list Z)),
     TimeTotal 1%N (-1) (after_Fopen [-131]) = Returned (0%float, Some e) w') /\
  (exists (e : string) (w' : world (list Z)),
     TimeTell 1%N (after_Fopen [-131]) = Returned (0%float, Some e) w').
Proof.
  pose proof (failed_results_are_zero 1%N {| vf := 1%N |} (after_Fopen [-131])
                eq_refl eq_refl) as (HRead & HPcm & HTotal & HTell).
  split; [| split; [| split]].
  - apply (HRead 64%N 4096 false 2 true). vm_compute. reflexivity.
  - apply (HPcm (-1)). vm_compute. reflexivity.
  - apply (HTotal (-1)). vm_compute. reflexivity.
  - apply HTell. vm_compute. reflexivity.
Defined.

End Runs.
